(** * eslint-plugin-angular-template-consistent-this

    A shallow embedding of the rule listener of
    [src/lib/rules/eslint-plugin-angular-template-consistent-this.ts]:
    the two closure-captured registries ([variables], [templates]), the
    three visitor callbacks ([Template], [Element], [PropertyRead]) and
    [reportError], followed by the properties the specification states
    about them.

    The callbacks are effectful: they push onto the registries, they hand
    report descriptors to [context.report], and a member access on an
    undefined value aborts them with a [TypeError].  They are written in a
    small monad [Js] that threads the registries, collects the descriptors
    that were reported, and carries the completion (normal or thrown). *)

From Stdlib Require Import String Ascii List ZArith Bool Lia.
Import ListNotations.

Open Scope string_scope.
Open Scope Z_scope.
Open Scope list_scope.

(** ** The template AST, as far as the rule reads it *)

(** [VariableAst] of @angular/compiler: a template input variable
    ([let item]). *)
Record VariableAst := mkVariableAst {
  var_name : string;
  var_value : string
}.

(** [ReferenceAst] of @angular/compiler: a template reference ([#tpl]). *)
Record ReferenceAst := mkReferenceAst {
  ref_name : string
}.

(** [EmbeddedTemplateAst]: the rule reads [node.variables] and
    [node.references]. *)
Record EmbeddedTemplateAst := mkEmbeddedTemplateAst {
  tpl_variables : list VariableAst;
  tpl_references : list ReferenceAst
}.

(** [ElementAst]: the rule reads [node.references]. *)
Record ElementAst := mkElementAst {
  el_name : string;
  el_references : list ReferenceAst
}.

(** The receiver of a property read: [ImplicitReceiver] for [foo],
    [ThisReceiver] for [this.foo], anything else for [a.foo]. *)
Inductive Receiver :=
| ImplicitReceiver
| ThisReceiver
| OtherReceiver.

(** An ancestor of a property read.  At run time both [parent] and [name]
    may be [undefined], which is [None] here. *)
#[warnings="-register-all"]
Inductive AstParent :=
| mkAstParent (anc_name : option string) (anc_parent : option AstParent).

Definition anc_name (p : AstParent) : option string :=
  match p with mkAstParent n _ => n end.

Definition anc_parent (p : AstParent) : option AstParent :=
  match p with mkAstParent _ q => q end.

(** [AbsoluteSourceSpan]: offsets into the template source text. *)
Record AbsoluteSourceSpan := mkSpan {
  start : Z;
  end_ : Z
}.

(** Modelled from the spec: [PropertyReadWithParent] is declared in
    [../types], which is not part of the sources at hand.  The spec gives a
    read a name, a receiver form, a source span and a parent chain; the
    callback reads [node.name], [node.sourceSpan.start],
    [node.sourceSpan.end] and [node.parent.parent.name]. *)
Record PropertyReadWithParent := mkPropertyRead {
  name : string;
  receiver : Receiver;
  sourceSpan : AbsoluteSourceSpan;
  parent : option AstParent
}.

Module Utils.

(** Modelled from the spec: [Utils.isImplicitReceiver] lives in [../utils],
    which is not part of the sources at hand.  The spec's receiver form
    [implicit] means that no qualifier is present. *)
Definition isImplicitReceiver (node : PropertyReadWithParent) : bool :=
  match receiver node with
  | ImplicitReceiver => true
  | _ => false
  end.

(** Modelled from the spec: [Utils.isExplicitReceiver] lives in [../utils],
    which is not part of the sources at hand.  The spec's receiver form
    [explicit] means that the [this] qualifier is present. *)
Definition isExplicitReceiver (node : PropertyReadWithParent) : bool :=
  match receiver node with
  | ThisReceiver => true
  | _ => false
  end.

End Utils.

(** ** Rule options and message identifiers *)

Module Options.

(** [RuleOptions]: each of the three settings holds the string
    ["explicit"] or ["implicit"]; the callback compares them with [===]. *)
Record t := mk {
  properties : string;
  variables : string;
  templateReferences : string
}.

End Options.

Definition defaultOptions : Options.t :=
  Options.mk "explicit" "implicit" "implicit".

(** The keys of [meta.messages]. *)
Inductive MessageIds :=
| explicitThisProperties
| implicitThisProperties
| explicitThisVariables
| implicitThisVariables
| explicitThisTemplateReferences
| implicitThisTemplateReferences.

(** Modelled from the spec: the table [MESSAGE_IDS] lives in
    [../message-ids], which is not part of the sources at hand.  It maps a
    tier group and a mode to the message identifier of that kind (explicit
    or implicit, for properties, variables or template references). *)
Module MESSAGE_IDS.
Module properties.
Definition explicit := explicitThisProperties.
Definition implicit := implicitThisProperties.
End properties.
Module variables.
Definition explicit := explicitThisVariables.
Definition implicit := implicitThisVariables.
End variables.
Module templateReferences.
Definition explicit := explicitThisTemplateReferences.
Definition implicit := implicitThisTemplateReferences.
End templateReferences.
End MESSAGE_IDS.

(** ** The host: source code service, fixer and report descriptors *)

Record LineAndColumn := mkLoc {
  line : Z;
  column : Z
}.

Record SourceLocation := mkSourceLocation {
  loc_start : LineAndColumn;
  loc_end : LineAndColumn
}.

(** The two methods of ESLint's [SourceCode] that [reportError] calls.
    Both are taken to answer: ESLint's throw a [RangeError] for an offset
    or a location outside the text, and the spans of a parsed template
    lie inside it. *)
Record SourceCode := mkSourceCode {
  getLocFromIndex : Z -> LineAndColumn;
  getIndexFromLoc : LineAndColumn -> Z
}.

Record RuleContext := mkRuleContext {
  getSourceCode : SourceCode
}.

(** The two calls on the [RuleFixer] that the [fix] callback can make. *)
Inductive RuleFix :=
| insertTextBeforeRange (range : Z * Z) (text : string)
| replaceTextRange (range : Z * Z) (text : string).

(** The object handed to [context.report]. *)
Record ReportDescriptor := mkReport {
  messageId : MessageIds;
  data_prop : string;
  loc : SourceLocation;
  fix_ : RuleFix
}.

(** ** The effect monad of the callbacks *)

(** The errors a visit can end with: the [TypeError] of a member read on
    [undefined], and the [RangeError] with which the host's source code
    service refuses an offset outside the text.  The service is taken to
    answer (see [SourceCode]), so no callback below raises the second. *)
Inductive JsError : Set :=
| TypeError
| RangeError.

Inductive Completion (A : Type) :=
| Normal (a : A)
| Throw (e : JsError).

Arguments Normal {A} a.
Arguments Throw {A} e.

(** The arrays [variables] and [templates] that [createRuleListener]
    allocates and its callbacks capture. *)
Record Registries := mkRegistries {
  variables : list VariableAst;
  templates : list ReferenceAst
}.

Record Outcome (A : Type) := mkOutcome {
  completion : Completion A;
  registries : Registries;
  emitted : list ReportDescriptor
}.

Arguments mkOutcome {A} _ _ _.
Arguments completion {A} _.
Arguments registries {A} _.
Arguments emitted {A} _.

Definition Js (A : Type) : Type := Registries -> Outcome A.

Definition ret {A : Type} (a : A) : Js A :=
  fun r => mkOutcome (Normal a) r [].

Definition bind {A B : Type} (c : Js A) (k : A -> Js B) : Js B :=
  fun r =>
    let o := c r in
    match completion o with
    | Normal a =>
        let o' := k a (registries o) in
        mkOutcome (completion o') (registries o') (emitted o ++ emitted o')
    | Throw e => mkOutcome (Throw e) (registries o) (emitted o)
    end.

Notation "x <- c ;; k" := (bind c (fun x => k))
  (at level 61, c at next level, right associativity).
Notation "c ;;; k" := (bind c (fun _ => k))
  (at level 61, right associativity).

Definition throw {A : Type} (e : JsError) : Js A :=
  fun r => mkOutcome (Throw e) r [].

Definition readVariables : Js (list VariableAst) :=
  fun r => mkOutcome (Normal (variables r)) r [].

Definition readTemplates : Js (list ReferenceAst) :=
  fun r => mkOutcome (Normal (templates r)) r [].

(** [variables.push(...xs)] *)
Definition pushVariables (xs : list VariableAst) : Js unit :=
  fun r => mkOutcome (Normal tt) (mkRegistries (variables r ++ xs) (templates r)) [].

(** [templates.push(...xs)] *)
Definition pushTemplates (xs : list ReferenceAst) : Js unit :=
  fun r => mkOutcome (Normal tt) (mkRegistries (variables r) (templates r ++ xs)) [].

(** [context.report(d)] *)
Definition report (d : ReportDescriptor) : Js unit :=
  fun r => mkOutcome (Normal tt) r [d].

(** Reading a member of [o]: a [TypeError] when [o] is undefined. *)
Definition member {A : Type} (o : option AstParent) (f : AstParent -> A) : Js A :=
  match o with
  | Some p => ret (f p)
  | None => throw TypeError
  end.

(** [Array.prototype.includes] on an array of strings. *)
Definition includes (l : list string) (x : string) : bool :=
  existsb (String.eqb x) l.

(** [includes] applied to a value that may be [undefined]: no string is
    equal to [undefined]. *)
Definition includes_value (l : list string) (x : option string) : bool :=
  match x with
  | Some s => includes l s
  | None => false
  end.

(** ** The rule *)

Definition SAFE_STRUCTURAL_DIRECTIVES : list string :=
  ["ngIfThen"; "ngIfElse"; "ngTemplateOutlet"].

Definition SAFE_GLOBALS : list string :=
  ["$event"].

(** The object literal that [reportError] passes to [context.report]. *)
Definition descriptor (context : RuleContext) (explicit : bool)
    (messageId : MessageIds) (node : PropertyReadWithParent) : ReportDescriptor :=
  let sourceCode := getSourceCode context in
  let loc :=
    mkSourceLocation
      (getLocFromIndex sourceCode (start (sourceSpan node)))
      (getLocFromIndex sourceCode (end_ (sourceSpan node))) in
  let startIndex := getIndexFromLoc sourceCode (loc_start loc) in
  mkReport messageId (name node) loc
    (if explicit
     then insertTextBeforeRange (startIndex, startIndex) "this."
     else replaceTextRange
            (startIndex, startIndex + Z.of_nat (String.length "this.")) "").

Definition reportError (context : RuleContext) (explicit : bool)
    (messageId : MessageIds) (node : PropertyReadWithParent) : Js unit :=
  report (descriptor context explicit messageId node).

Section Listener.

Variable context : RuleContext.
Variable options : Options.t.

Definition Template (node : EmbeddedTemplateAst) : Js unit :=
  pushVariables (tpl_variables node) ;;;
  pushTemplates (tpl_references node).

Definition Element (node : ElementAst) : Js unit :=
  if (0 <? Z.of_nat (length (el_references node)))
  then pushTemplates (el_references node)
  else ret tt.

Definition PropertyRead (node : PropertyReadWithParent) : Js unit :=
  let isImplicitReceiver := Utils.isImplicitReceiver node in
  let isExplicitReceiver := Utils.isExplicitReceiver node in
  if negb isImplicitReceiver && negb isExplicitReceiver then ret tt
  else if includes SAFE_GLOBALS (name node) then ret tt
  else
    vars <- readVariables ;;
    if includes (map var_name vars) (name node) then
      if (Options.variables options =? "explicit")%string && isImplicitReceiver
      then reportError context true MESSAGE_IDS.variables.explicit node
      else if (Options.variables options =? "implicit")%string && isExplicitReceiver
      then reportError context false MESSAGE_IDS.variables.implicit node
      else ret tt
    else
      tpls <- readTemplates ;;
      if includes (map ref_name tpls) (name node) then
        if (Options.templateReferences options =? "explicit")%string && isImplicitReceiver
        then reportError context true MESSAGE_IDS.templateReferences.explicit node
        else if (Options.templateReferences options =? "implicit")%string && isExplicitReceiver
        then reportError context false MESSAGE_IDS.templateReferences.implicit node
        else ret tt
      else
        p <- member (parent node) (fun p => p) ;;
        host <- member (anc_parent p) anc_name ;;
        if includes_value SAFE_STRUCTURAL_DIRECTIVES host then
          if (Options.templateReferences options =? "explicit")%string && isImplicitReceiver
          then reportError context true MESSAGE_IDS.templateReferences.explicit node
          else if (Options.templateReferences options =? "implicit")%string && isExplicitReceiver
          then reportError context false MESSAGE_IDS.templateReferences.implicit node
          else ret tt
        else
          if (Options.properties options =? "explicit")%string && isImplicitReceiver
          then reportError context true MESSAGE_IDS.properties.explicit node
          else if (Options.properties options =? "implicit")%string && isExplicitReceiver
          then reportError context false MESSAGE_IDS.properties.implicit node
          else ret tt.

(** ** The traversal

    The host walks the template AST and calls the callback that matches
    the type of each node it enters.  A traversal is the sequence of these
    visits, in the order the host makes them; a callback that throws ends
    it. *)

Inductive Visit :=
| VisitTemplate (node : EmbeddedTemplateAst)
| VisitElement (node : ElementAst)
| VisitPropertyRead (node : PropertyReadWithParent).

Definition dispatch (v : Visit) : Js unit :=
  match v with
  | VisitTemplate node => Template node
  | VisitElement node => Element node
  | VisitPropertyRead node => PropertyRead node
  end.

Fixpoint traverse (vs : list Visit) : Js unit :=
  match vs with
  | [] => ret tt
  | v :: vs' => dispatch v ;;; traverse vs'
  end.

End Listener.

(** [createRuleListener] starts every run with two empty arrays. *)
Definition createRuleListener : Registries :=
  mkRegistries [] [].

(** One run of the rule over one template unit. *)
Definition lint (context : RuleContext) (options : Options.t)
    (vs : list Visit) : Outcome unit :=
  traverse context options vs createRuleListener.

(** ** What the traversal declares *)

(** The input variables that the visits of a traversal register. *)
Definition declaredVariables (vs : list Visit) : list VariableAst :=
  flat_map (fun v =>
    match v with
    | VisitTemplate node => tpl_variables node
    | _ => []
    end) vs.

(** The template references that the visits of a traversal register. *)
Definition declaredReferences (vs : list Visit) : list ReferenceAst :=
  flat_map (fun v =>
    match v with
    | VisitTemplate node => tpl_references node
    | VisitElement node => el_references node
    | VisitPropertyRead _ => []
    end) vs.

(** ** The decision of the spec, for comparison with the callback *)

(** The two-branch policy of the spec's section 4.2: a mode, the message
    identifiers of its tier and the receiver form of the read give either
    no violation or one. *)
Definition spec_policy (context : RuleContext) (mode : string)
    (explicitId implicitId : MessageIds) (node : PropertyReadWithParent)
    : list ReportDescriptor :=
  match receiver node with
  | ImplicitReceiver =>
      if (mode =? "explicit")%string
      then [descriptor context true explicitId node] else []
  | ThisReceiver =>
      if (mode =? "implicit")%string
      then [descriptor context false implicitId node] else []
  | OtherReceiver => []
  end.

(** A callback that returned, left the registries as they were and
    reported [ds]. *)
Definition resolved (regs : Registries) (ds : list ReportDescriptor) : Outcome unit :=
  mkOutcome (Normal tt) regs ds.

(** The message identifiers that ask for the qualifier. *)
Definition demandsExplicit (m : MessageIds) : bool :=
  match m with
  | explicitThisProperties
  | explicitThisVariables
  | explicitThisTemplateReferences => true
  | _ => false
  end.

Definition allMessageIds : list MessageIds :=
  [explicitThisProperties; implicitThisProperties;
   explicitThisVariables; implicitThisVariables;
   explicitThisTemplateReferences; implicitThisTemplateReferences].

(** ** A source code service for concrete runs

    Lines and columns of a text, as ESLint counts them: lines from 1,
    columns from 0, a line feed ends a line.  It stands in for the host on
    the sample texts below, which are single lines of ASCII; the
    properties are stated for every context. *)

Definition isLineFeed (c : ascii) : bool :=
  (c =? "010")%char.

Fixpoint locFromIndex (text : string) (index : nat) (l c : Z) : LineAndColumn :=
  match index, text with
  | S index', String ch text' =>
      if isLineFeed ch
      then locFromIndex text' index' (l + 1) 0
      else locFromIndex text' index' l (c + 1)
  | _, _ => mkLoc l c
  end.

Fixpoint lineStart (text : string) (target : nat) (offset : Z) : Z :=
  match target, text with
  | S target', String ch text' =>
      if isLineFeed ch
      then lineStart text' target' (offset + 1)
      else lineStart text' target (offset + 1)
  | _, _ => offset
  end.

Definition sourceCodeOf (text : string) : SourceCode :=
  mkSourceCode
    (fun index => locFromIndex text (Z.to_nat index) 1 0)
    (fun l => lineStart text (Z.to_nat (line l - 1)) 0 + column l).

Definition contextOf (text : string) : RuleContext :=
  mkRuleContext (sourceCodeOf text).

(** ** Sample template units

    Small templates with the visits the host makes over them; the reads
    carry the offsets they have in the text. *)

(** The parent chain of a read in an interpolation: neither ancestor has
    a name. *)
Definition inInterpolation : option AstParent :=
  Some (mkAstParent None (Some (mkAstParent None None))).

(** The parent chain of a read in a binding whose host is called [host]. *)
Definition inBinding (host : string) : option AstParent :=
  Some (mkAstParent None (Some (mkAstParent (Some host) None))).

Module ForwardReference.
Definition text := "<button (click)='input'></button><input #input>".
Definition read := mkPropertyRead "input" ImplicitReceiver (mkSpan 17 22) (inBinding "click").
Definition unit :=
  [ VisitElement (mkElementAst "button" []);
    VisitPropertyRead read;
    VisitElement (mkElementAst "input" [mkReferenceAst "input"]) ].
End ForwardReference.

Module BackwardReference.
Definition text := "<input #input><button (click)='input'></button>".
Definition read := mkPropertyRead "input" ImplicitReceiver (mkSpan 31 36) (inBinding "click").
Definition before :=
  [ VisitElement (mkElementAst "input" [mkReferenceAst "input"]);
    VisitElement (mkElementAst "button" []) ].
End BackwardReference.

Module LoopVariable.
Definition text := "<li *ngFor='let item of items'>{{ this.item }}</li>".
Definition read := mkPropertyRead "item" ThisReceiver (mkSpan 34 43) inInterpolation.
Definition registered := mkRegistries [mkVariableAst "item" "$implicit"] [].
End LoopVariable.

Module EventVariable.
Definition text := "<ng-template let-$event><p>{{ $event }}</p></ng-template>".
Definition read := mkPropertyRead "$event" ImplicitReceiver (mkSpan 30 36) inInterpolation.
Definition registered := mkRegistries [mkVariableAst "$event" "$implicit"] [].
End EventVariable.

Module EventBinding.
Definition text := "<button (click)='save($event)'></button>".
Definition read := mkPropertyRead "$event" ImplicitReceiver (mkSpan 22 28) (inBinding "click").
End EventBinding.

Module ThenPointer.
Definition text := "<div *ngIf='ok; then this.tpl'></div>".
Definition read := mkPropertyRead "tpl" ThisReceiver (mkSpan 21 29) (inBinding "ngIfThen").
End ThenPointer.

Module ThenEvent.
Definition text := "<div *ngIf='ok; then this.$event'></div>".
Definition read := mkPropertyRead "$event" ThisReceiver (mkSpan 21 32) (inBinding "ngIfThen").
End ThenEvent.

Module Orphan.
Definition text := "{{ name }}".
Definition read := mkPropertyRead "name" ImplicitReceiver (mkSpan 3 7) None.
Definition readUnderRoot :=
  mkPropertyRead "name" ImplicitReceiver (mkSpan 3 7) (Some (mkAstParent None None)).
Definition readUnnamed :=
  mkPropertyRead "name" ImplicitReceiver (mkSpan 3 7) inInterpolation.
End Orphan.

Module EventShadowed.
Definition text := "<ng-template let-$event #$event>{{ $event }}</ng-template>".
Definition read := mkPropertyRead "$event" ImplicitReceiver (mkSpan 35 41) inInterpolation.
Definition registered :=
  mkRegistries [mkVariableAst "$event" "$implicit"] [mkReferenceAst "$event"].
End EventShadowed.

Module Shadowed.
Definition text := "<ng-template let-item #item>{{ this.item }}</ng-template>".
Definition read := mkPropertyRead "item" ThisReceiver (mkSpan 31 40) inInterpolation.
Definition registered :=
  mkRegistries [mkVariableAst "item" "$implicit"] [mkReferenceAst "item"].
End Shadowed.

(** ** Notions used to state further properties *)

(** [node.parent.parent], when both member reads succeed. *)
Definition grandparent (node : PropertyReadWithParent) : option AstParent :=
  match parent node with
  | Some p => anc_parent p
  | None => None
  end.

(** The five places where the callback can settle a read, in the order of
    its tests. *)
Inductive Tier :=
| SafeGlobal
| InputVariable
| TemplateReference
| DirectiveSafeReference
| PlainProperty.

(** The first test of the callback that a read passes; [None] when the
    read reaches [node.parent.parent.name] without a grandparent. *)
Definition classify (regs : Registries) (node : PropertyReadWithParent)
    : option Tier :=
  if includes SAFE_GLOBALS (name node) then Some SafeGlobal
  else if includes (map var_name (variables regs)) (name node)
  then Some InputVariable
  else if includes (map ref_name (templates regs)) (name node)
  then Some TemplateReference
  else
    match grandparent node with
    | None => None
    | Some g =>
        if includes_value SAFE_STRUCTURAL_DIRECTIVES (anc_name g)
        then Some DirectiveSafeReference
        else Some PlainProperty
    end.

(** What the two-branch policy gives in each tier. *)
Definition tierReports (context : RuleContext) (options : Options.t)
    (t : Tier) (node : PropertyReadWithParent) : list ReportDescriptor :=
  match t with
  | SafeGlobal => []
  | InputVariable =>
      spec_policy context (Options.variables options)
        explicitThisVariables implicitThisVariables node
  | TemplateReference | DirectiveSafeReference =>
      spec_policy context (Options.templateReferences options)
        explicitThisTemplateReferences implicitThisTemplateReferences node
  | PlainProperty =>
      spec_policy context (Options.properties options)
        explicitThisProperties implicitThisProperties node
  end.

(** The option that a message identifier belongs to, and the value of the
    option that asks for it. *)
Definition optionOf (m : MessageIds) (options : Options.t) : string :=
  match m with
  | explicitThisProperties | implicitThisProperties =>
      Options.properties options
  | explicitThisVariables | implicitThisVariables =>
      Options.variables options
  | explicitThisTemplateReferences | implicitThisTemplateReferences =>
      Options.templateReferences options
  end.

Definition modeOf (m : MessageIds) : string :=
  if demandsExplicit m then "explicit" else "implicit".

(** The receiver that a read has once its fix is applied. *)
Definition flipReceiver (r : Receiver) : Receiver :=
  match r with
  | ImplicitReceiver => ThisReceiver
  | ThisReceiver => ImplicitReceiver
  | OtherReceiver => OtherReceiver
  end.

(** The same read spelled with the other receiver, at the span it then
    has. *)
Definition respelled (node : PropertyReadWithParent)
    (span : AbsoluteSourceSpan) : PropertyReadWithParent :=
  mkPropertyRead (name node) (flipReceiver (receiver node)) span (parent node).

Definition isRead (v : Visit) : bool :=
  match v with
  | VisitPropertyRead _ => true
  | _ => false
  end.

Definition countReads (vs : list Visit) : nat :=
  length (filter isRead vs).

(** [meta.messages]: the text of each message identifier. *)
Definition messages (m : MessageIds) : string :=
  match m with
  | explicitThisProperties => "Use explicit this for property `{{prop}}`."
  | implicitThisProperties =>
      "Don't use explicit this for property `{{prop}}`."
  | explicitThisVariables => "Use explicit this for variable `{{prop}}`."
  | implicitThisVariables =>
      "Don't use explicit this for variable `{{prop}}`."
  | explicitThisTemplateReferences =>
      "Use explicit this for template references `{{prop}}`."
  | implicitThisTemplateReferences =>
      "Don't use explicit this for template references `{{prop}}`."
  end.

(** The fixes that add text and remove none. *)
Definition isInsertion (f : RuleFix) : bool :=
  match f with
  | insertTextBeforeRange _ _ => true
  | replaceTextRange _ _ => false
  end.

(** * Properties *)

(** ** Membership tests *)

Lemma includes_In (l : list string) (x : string) :
  includes l x = true <-> In x l.
Proof.
  unfold includes. rewrite existsb_exists. split.
  - intros [y [Hy Heq]]. apply String.eqb_eq in Heq. now subst.
  - intros H. exists x. split; [exact H | apply String.eqb_refl].
Qed.

Lemma includes_not_In (l : list string) (x : string) :
  includes l x = false <-> ~ In x l.
Proof.
  rewrite <- includes_In. destruct (includes l x); split; congruence.
Qed.

Lemma includes_value_undefined (l : list string) :
  includes_value l None = false.
Proof. reflexivity. Qed.

#[local] Arguments includes : simpl never.
#[local] Arguments includes_value : simpl never.
#[local] Arguments String.eqb : simpl never.

(** ** The callback, tier by tier *)

Ltac run_read :=
  unfold PropertyRead, resolved, spec_policy, reportError, report, bind, ret,
    readVariables, readTemplates, member, throw,
    Utils.isImplicitReceiver, Utils.isExplicitReceiver.

Ltac by_mode m :=
  destruct (String.eqb m "explicit"); destruct (String.eqb m "implicit");
  reflexivity.

Section Tiers.

Variable context : RuleContext.
Variable options : Options.t.
Variable node : PropertyReadWithParent.
Variable regs : Registries.

Lemma read_other_receiver :
  receiver node = OtherReceiver ->
  PropertyRead context options node regs = resolved regs [].
Proof.
  intros H. run_read. rewrite H. reflexivity.
Qed.

Lemma read_safe_global :
  includes SAFE_GLOBALS (name node) = true ->
  PropertyRead context options node regs = resolved regs [].
Proof.
  intros H. run_read. rewrite H.
  destruct (receiver node); reflexivity.
Qed.

Lemma read_variable :
  includes SAFE_GLOBALS (name node) = false ->
  includes (map var_name (variables regs)) (name node) = true ->
  PropertyRead context options node regs
  = resolved regs
      (spec_policy context (Options.variables options)
         explicitThisVariables implicitThisVariables node).
Proof.
  intros Hg Hv. run_read. rewrite Hg.
  destruct (receiver node); cbn; [| | reflexivity];
    rewrite Hv; by_mode (Options.variables options).
Qed.

Lemma read_reference :
  includes SAFE_GLOBALS (name node) = false ->
  includes (map var_name (variables regs)) (name node) = false ->
  includes (map ref_name (templates regs)) (name node) = true ->
  PropertyRead context options node regs
  = resolved regs
      (spec_policy context (Options.templateReferences options)
         explicitThisTemplateReferences implicitThisTemplateReferences node).
Proof.
  intros Hg Hv Ht. run_read. rewrite Hg.
  destruct (receiver node); cbn; [| | reflexivity];
    rewrite Hv; cbn; rewrite Ht;
    by_mode (Options.templateReferences options).
Qed.

Lemma read_safe_directive (p g : AstParent) :
  includes SAFE_GLOBALS (name node) = false ->
  includes (map var_name (variables regs)) (name node) = false ->
  includes (map ref_name (templates regs)) (name node) = false ->
  parent node = Some p ->
  anc_parent p = Some g ->
  includes_value SAFE_STRUCTURAL_DIRECTIVES (anc_name g) = true ->
  PropertyRead context options node regs
  = resolved regs
      (spec_policy context (Options.templateReferences options)
         explicitThisTemplateReferences implicitThisTemplateReferences node).
Proof.
  intros Hg Hv Ht Hp Hpp Hd. run_read. rewrite Hg, Hp.
  destruct (receiver node); cbn; [| | reflexivity];
    rewrite Hv; cbn; rewrite Ht; cbn; rewrite Hpp; cbn; rewrite Hd;
    by_mode (Options.templateReferences options).
Qed.

Lemma read_plain_property (p g : AstParent) :
  includes SAFE_GLOBALS (name node) = false ->
  includes (map var_name (variables regs)) (name node) = false ->
  includes (map ref_name (templates regs)) (name node) = false ->
  parent node = Some p ->
  anc_parent p = Some g ->
  includes_value SAFE_STRUCTURAL_DIRECTIVES (anc_name g) = false ->
  PropertyRead context options node regs
  = resolved regs
      (spec_policy context (Options.properties options)
         explicitThisProperties implicitThisProperties node).
Proof.
  intros Hg Hv Ht Hp Hpp Hd. run_read. rewrite Hg, Hp.
  destruct (receiver node); cbn; [| | reflexivity];
    rewrite Hv; cbn; rewrite Ht; cbn; rewrite Hpp; cbn; rewrite Hd;
    by_mode (Options.properties options).
Qed.

Lemma read_missing_ancestor :
  receiver node <> OtherReceiver ->
  includes SAFE_GLOBALS (name node) = false ->
  includes (map var_name (variables regs)) (name node) = false ->
  includes (map ref_name (templates regs)) (name node) = false ->
  match parent node with
  | None => True
  | Some p => anc_parent p = None
  end ->
  PropertyRead context options node regs
  = mkOutcome (Throw TypeError) regs [].
Proof.
  intros Hr Hg Hv Ht Hp. run_read. rewrite Hg.
  destruct (receiver node); [| | congruence];
    (destruct (parent node) as [p|]; cbn; rewrite Hv; cbn; rewrite Ht; cbn;
     [rewrite Hp |]; reflexivity).
Qed.

(** Every read ends in one of three ways: it returns without a report, it
    returns with the one report of its tier, or it throws without one. *)
Lemma read_cases :
  PropertyRead context options node regs = resolved regs []
  \/ (exists explicit m,
        PropertyRead context options node regs
        = resolved regs [descriptor context explicit m node]
        /\ demandsExplicit m = explicit
        /\ receiver node = (if explicit then ImplicitReceiver else ThisReceiver))
  \/ PropertyRead context options node regs = mkOutcome (Throw TypeError) regs [].
Proof.
  assert (P : forall mode e i,
    demandsExplicit e = true -> demandsExplicit i = false ->
    resolved regs (spec_policy context mode e i node) = resolved regs []
    \/ exists explicit m,
        resolved regs (spec_policy context mode e i node)
        = resolved regs [descriptor context explicit m node]
        /\ demandsExplicit m = explicit
        /\ receiver node = (if explicit then ImplicitReceiver else ThisReceiver)).
  { intros mode e i He Hi. unfold spec_policy.
    destruct (receiver node) eqn:Hr.
    - destruct (String.eqb mode "explicit"); [right | left; reflexivity].
      exists true, e. auto.
    - destruct (String.eqb mode "implicit"); [right | left; reflexivity].
      exists false, i. auto.
    - left; reflexivity. }
  assert (Hr : receiver node = OtherReceiver \/ receiver node <> OtherReceiver)
    by (destruct (receiver node); [right | right | left]; congruence).
  destruct Hr as [Hr | Hr].
  { left. now apply read_other_receiver. }
  destruct (includes SAFE_GLOBALS (name node)) eqn:Hg.
  { left. now apply read_safe_global. }
  destruct (includes (map var_name (variables regs)) (name node)) eqn:Hv.
  { rewrite (read_variable Hg Hv).
    destruct (P (Options.variables options) explicitThisVariables
                implicitThisVariables eq_refl eq_refl); auto. }
  destruct (includes (map ref_name (templates regs)) (name node)) eqn:Ht.
  { rewrite (read_reference Hg Hv Ht).
    destruct (P (Options.templateReferences options)
                explicitThisTemplateReferences
                implicitThisTemplateReferences eq_refl eq_refl); auto. }
  destruct (parent node) as [p|] eqn:Hp.
  2: { right; right. apply read_missing_ancestor; auto. now rewrite Hp. }
  destruct (anc_parent p) as [g|] eqn:Hpp.
  2: { right; right. apply read_missing_ancestor; auto. now rewrite Hp. }
  destruct (includes_value SAFE_STRUCTURAL_DIRECTIVES (anc_name g)) eqn:Hd.
  - rewrite (read_safe_directive p g Hg Hv Ht Hp Hpp Hd).
    destruct (P (Options.templateReferences options)
                explicitThisTemplateReferences
                implicitThisTemplateReferences eq_refl eq_refl); auto.
  - rewrite (read_plain_property p g Hg Hv Ht Hp Hpp Hd).
    destruct (P (Options.properties options)
                explicitThisProperties
                implicitThisProperties eq_refl eq_refl); auto.
Qed.

End Tiers.

(** ** The registries along a traversal *)

Lemma Template_run (node : EmbeddedTemplateAst) (regs : Registries) :
  Template node regs
  = mkOutcome (Normal tt)
      (mkRegistries (variables regs ++ tpl_variables node)
                    (templates regs ++ tpl_references node)) [].
Proof. reflexivity. Qed.

Lemma Element_run (node : ElementAst) (regs : Registries) :
  Element node regs
  = mkOutcome (Normal tt)
      (mkRegistries (variables regs) (templates regs ++ el_references node)) [].
Proof.
  unfold Element. destruct (el_references node) as [|x xs].
  - destruct regs as [vs ts]. cbn. now rewrite app_nil_r.
  - reflexivity.
Qed.

Lemma read_registries (context : RuleContext) (options : Options.t)
    (node : PropertyReadWithParent) (regs : Registries) :
  registries (PropertyRead context options node regs) = regs.
Proof.
  destruct (read_cases context options node regs)
    as [E | [(e & m & E & _) | E]]; now rewrite E.
Qed.

Lemma traverse_cons (context : RuleContext) (options : Options.t)
    (v : Visit) (vs : list Visit) (regs : Registries) :
  traverse context options (v :: vs) regs
  = bind (dispatch context options v)
         (fun _ => traverse context options vs) regs.
Proof. reflexivity. Qed.

Lemma bind_ret_l {B : Type} (k : unit -> Js B) (regs : Registries) :
  bind (ret tt) k regs = k tt regs.
Proof.
  unfold bind, ret. cbn. now destruct (k tt regs).
Qed.

Lemma bind_assoc {A B C : Type} (c : Js A) (k : A -> Js B) (h : B -> Js C)
    (regs : Registries) :
  bind (bind c k) h regs = bind c (fun a => bind (k a) h) regs.
Proof.
  unfold bind. destruct (c regs) as [[a|e] r1 out1]; cbn; [| reflexivity].
  destruct (k a r1) as [[b|e] r2 out2]; cbn; [| reflexivity].
  now rewrite app_assoc.
Qed.

Lemma bind_ext {A B : Type} (c : Js A) (k k' : A -> Js B) (regs : Registries) :
  (forall a r, k a r = k' a r) ->
  bind c k regs = bind c k' regs.
Proof.
  intros H. unfold bind. destruct (completion (c regs)); [| reflexivity].
  now rewrite H.
Qed.

Lemma traverse_app (context : RuleContext) (options : Options.t)
    (vs ws : list Visit) (regs : Registries) :
  traverse context options (vs ++ ws) regs
  = bind (traverse context options vs)
         (fun _ => traverse context options ws) regs.
Proof.
  revert regs. induction vs as [|v vs IH]; intros regs.
  - cbn [app traverse]. now rewrite bind_ret_l.
  - rewrite <- app_comm_cons. cbn [traverse]. rewrite bind_assoc.
    apply bind_ext. intros _ r. apply IH.
Qed.

Lemma traverse_declares (context : RuleContext) (options : Options.t)
    (vs : list Visit) (regs : Registries) :
  completion (traverse context options vs regs) = Normal tt ->
  registries (traverse context options vs regs)
  = mkRegistries (variables regs ++ declaredVariables vs)
                 (templates regs ++ declaredReferences vs).
Proof.
  revert regs. induction vs as [|v vs IH]; intros regs H.
  - destruct regs. cbn. now rewrite !app_nil_r.
  - rewrite traverse_cons in *. unfold bind in *.
    destruct v as [t | e | n]; cbn [dispatch] in *.
    + rewrite Template_run in *. cbn in *. rewrite (IH _ H). cbn.
      now rewrite <- !app_assoc.
    + rewrite Element_run in *. cbn in *. rewrite (IH _ H). cbn.
      now rewrite <- !app_assoc.
    + destruct (read_cases context options n regs)
        as [E | [(e & m & E & _) | E]]; rewrite E in *; cbn in *;
        try discriminate; now rewrite (IH _ H).
Qed.

Lemma traverse_grows (context : RuleContext) (options : Options.t)
    (vs : list Visit) (regs : Registries) :
  exists xs ys,
    registries (traverse context options vs regs)
    = mkRegistries (variables regs ++ xs) (templates regs ++ ys).
Proof.
  revert regs. induction vs as [|v vs IH]; intros regs.
  - exists [], []. destruct regs. cbn. now rewrite !app_nil_r.
  - rewrite traverse_cons. unfold bind.
    assert (K : forall r xs ys,
      r = mkRegistries (variables regs ++ xs) (templates regs ++ ys) ->
      exists xs' ys',
        registries (traverse context options vs r)
        = mkRegistries (variables regs ++ xs') (templates regs ++ ys')).
    { intros r xs ys ->. destruct (IH (mkRegistries (variables regs ++ xs)
                                          (templates regs ++ ys)))
        as (xs' & ys' & E).
      exists (xs ++ xs'), (ys ++ ys'). rewrite E. cbn.
      now rewrite !app_assoc. }
    destruct v as [t | e | n]; cbn [dispatch].
    + rewrite Template_run. cbn. eapply K. reflexivity.
    + rewrite Element_run. cbn. apply (K _ [] (el_references e)).
      now rewrite app_nil_r.
    + destruct (read_cases context options n regs)
        as [E | [(e & m & E & _) | E]]; rewrite E; cbn.
      * apply (K _ [] []). destruct regs; cbn. now rewrite !app_nil_r.
      * apply (K _ [] []). destruct regs; cbn. now rewrite !app_nil_r.
      * exists [], []. destruct regs; cbn. now rewrite !app_nil_r.
Qed.

(** ** The policy at the two modes *)

Lemma policy_explicit_mode (context : RuleContext) (e i : MessageIds)
    (node : PropertyReadWithParent) :
  spec_policy context "explicit" e i node
  = match receiver node with
    | ImplicitReceiver => [descriptor context true e node]
    | _ => []
    end.
Proof. unfold spec_policy. destruct (receiver node); reflexivity. Qed.

Lemma policy_implicit_mode (context : RuleContext) (e i : MessageIds)
    (node : PropertyReadWithParent) :
  spec_policy context "implicit" e i node
  = match receiver node with
    | ThisReceiver => [descriptor context false i node]
    | _ => []
    end.
Proof. unfold spec_policy. destruct (receiver node); reflexivity. Qed.

(** * The claims *)

Ltac not_in := cbn; intuition discriminate.

(** ** C1 *)

(** C1, as stated, fails: in
    [<button (click)='input'></button><input #input>] the name
    [input] is declared as a template reference of the unit, after the read.
    The read is resolved against the registry as it is when the read is
    visited, so it lands in the plain-property tier: with
    [properties = "explicit"] it is reported as [explicitThisProperties],
    with [properties = "implicit"] nothing is reported, while the policy of
    [templateReferences = "implicit"] asks for no report at all. *)
Lemma C1_forward_reference_counterexample :
  In (name ForwardReference.read)
     (map ref_name (declaredReferences ForwardReference.unit))
  /\ emitted (lint (contextOf ForwardReference.text)
                (Options.mk "explicit" "implicit" "implicit")
                ForwardReference.unit)
     = [descriptor (contextOf ForwardReference.text) true
          explicitThisProperties ForwardReference.read]
  /\ emitted (lint (contextOf ForwardReference.text)
                (Options.mk "implicit" "implicit" "implicit")
                ForwardReference.unit)
     = []
  /\ spec_policy (contextOf ForwardReference.text) "implicit"
       explicitThisTemplateReferences implicitThisTemplateReferences
       ForwardReference.read
     = [].
Proof.
  repeat split; try reflexivity. cbn. auto.
Qed.

(** C1, amended: when the visits made before a read have registered its
    name as a template reference (and not as an input variable, and the
    name is not a safe global), the read is resolved in the
    template-reference tier: the visit returns, and what it reports is
    what the two-branch policy gives for [templateReferences], whatever
    [properties] is. *)
Theorem C1_reference_visited_before_read
    (context : RuleContext) (options : Options.t) (before : list Visit)
    (node : PropertyReadWithParent) (regs : Registries)
    (out : list ReportDescriptor) :
  lint context options before = mkOutcome (Normal tt) regs out ->
  In (name node) (map ref_name (declaredReferences before)) ->
  ~ In (name node) (map var_name (declaredVariables before)) ->
  ~ In (name node) SAFE_GLOBALS ->
  lint context options (before ++ [VisitPropertyRead node])
  = mkOutcome (Normal tt) regs
      (out ++ spec_policy context (Options.templateReferences options)
                explicitThisTemplateReferences
                implicitThisTemplateReferences node).
Proof.
  intros Hrun Hr Hv Hg. unfold lint in *.
  assert (Hregs : regs = mkRegistries (declaredVariables before)
                                      (declaredReferences before)).
  { pose proof (traverse_declares context options before createRuleListener) as D.
    rewrite Hrun in D. cbn in D. now apply D. }
  rewrite traverse_app. unfold bind at 1. rewrite Hrun.
  cbn [completion registries emitted traverse].
  unfold bind, dispatch.
  rewrite (read_reference context options node regs).
  - cbn. now rewrite app_nil_r.
  - now apply includes_not_In.
  - apply includes_not_In. now rewrite Hregs.
  - apply includes_In. now rewrite Hregs.
Qed.

Lemma C1_reference_visited_before_read_witness :
  lint (contextOf BackwardReference.text)
       (Options.mk "explicit" "implicit" "explicit") BackwardReference.before
  = mkOutcome (Normal tt) (mkRegistries [] [mkReferenceAst "input"]) []
  /\ lint (contextOf BackwardReference.text)
       (Options.mk "explicit" "implicit" "explicit")
       (BackwardReference.before ++ [VisitPropertyRead BackwardReference.read])
     = mkOutcome (Normal tt) (mkRegistries [] [mkReferenceAst "input"])
         [mkReport explicitThisTemplateReferences "input"
            (mkSourceLocation (mkLoc 1 31) (mkLoc 1 36))
            (insertTextBeforeRange (31, 31) "this.")].
Proof.
  split; [reflexivity |].
  apply (C1_reference_visited_before_read
           (contextOf BackwardReference.text)
           (Options.mk "explicit" "implicit" "explicit")
           BackwardReference.before BackwardReference.read
           (mkRegistries [] [mkReferenceAst "input"]) []).
  - reflexivity.
  - cbn. auto.
  - not_in.
  - not_in.
Defined.

(** ** C2 *)

(** C2, as stated, fails: a read that reaches the structural-directive
    check without a parent, or whose parent has no parent, makes
    [node.parent.parent.name] throw a [TypeError]; the visit does not fall
    through to the plain-property tier and reports nothing. *)
Lemma C2_missing_ancestor_counterexample :
  PropertyRead (contextOf Orphan.text) defaultOptions Orphan.read
    createRuleListener
  = mkOutcome (Throw TypeError) createRuleListener []
  /\ PropertyRead (contextOf Orphan.text) defaultOptions Orphan.readUnderRoot
       createRuleListener
     = mkOutcome (Throw TypeError) createRuleListener []
  /\ spec_policy (contextOf Orphan.text) (Options.properties defaultOptions)
       explicitThisProperties implicitThisProperties Orphan.read
     = [descriptor (contextOf Orphan.text) true explicitThisProperties
          Orphan.read].
Proof.
  repeat split; reflexivity.
Qed.

(** C2, amended: a read that reaches the structural-directive check (its
    name is no safe global and is in neither registry) and whose ancestor
    two levels up is there but carries no name does not match the safe
    list: the visit returns without an error and reports what the
    two-branch policy gives for [properties]. *)
Theorem C2_unnamed_ancestor_falls_through
    (context : RuleContext) (options : Options.t)
    (node : PropertyReadWithParent) (regs : Registries) (p g : AstParent) :
  ~ In (name node) SAFE_GLOBALS ->
  ~ In (name node) (map var_name (variables regs)) ->
  ~ In (name node) (map ref_name (templates regs)) ->
  parent node = Some p ->
  anc_parent p = Some g ->
  anc_name g = None ->
  PropertyRead context options node regs
  = resolved regs
      (spec_policy context (Options.properties options)
         explicitThisProperties implicitThisProperties node).
Proof.
  intros Hg Hv Ht Hp Hpp Hn.
  apply (read_plain_property context options node regs p g);
    try (now apply includes_not_In); try assumption.
  rewrite Hn. apply includes_value_undefined.
Qed.

Lemma C2_unnamed_ancestor_falls_through_witness :
  PropertyRead (contextOf Orphan.text) defaultOptions Orphan.readUnnamed
    createRuleListener
  = mkOutcome (Normal tt) createRuleListener
      [mkReport explicitThisProperties "name"
         (mkSourceLocation (mkLoc 1 3) (mkLoc 1 7))
         (insertTextBeforeRange (3, 3) "this.")].
Proof.
  apply (C2_unnamed_ancestor_falls_through
           (contextOf Orphan.text) defaultOptions Orphan.readUnnamed
           createRuleListener
           (mkAstParent None (Some (mkAstParent None None)))
           (mkAstParent None None)).
  - not_in.
  - not_in.
  - not_in.
  - reflexivity.
  - reflexivity.
  - reflexivity.
Defined.

(** ** C3 *)

(** C3, as stated, fails: the safe-global check comes before the
    input-variable tier.  In
    [<ng-template let-$event><p>{{ $event }}</p></ng-template>] the name
    [$event] is registered as an input variable, [variables] is
    ["explicit"] and the read is implicit, yet nothing is reported. *)
Lemma C3_safe_global_variable_counterexample :
  In (name EventVariable.read)
     (map var_name (variables EventVariable.registered))
  /\ receiver EventVariable.read = ImplicitReceiver
  /\ spec_policy (contextOf EventVariable.text) "explicit"
       explicitThisVariables implicitThisVariables EventVariable.read
     = [descriptor (contextOf EventVariable.text) true explicitThisVariables
          EventVariable.read]
  /\ PropertyRead (contextOf EventVariable.text)
       (Options.mk "explicit" "explicit" "implicit") EventVariable.read
       EventVariable.registered
     = resolved EventVariable.registered [].
Proof.
  repeat split; try reflexivity. cbn. auto.
Qed.

(** C3, amended: for every read whose name is registered as an input
    variable and is not a safe global: with [variables = "explicit"] a
    violation of kind [explicitThisVariables] is reported if and only if
    the receiver is implicit; with [variables = "implicit"] a violation of
    kind [implicitThisVariables] is reported if and only if the receiver is
    [this]; in every other combination nothing is reported.  The visit
    returns and reports exactly what the two-branch policy gives for
    [variables]. *)
Theorem C3_variable_tier_policy
    (context : RuleContext) (options : Options.t)
    (node : PropertyReadWithParent) (regs : Registries) :
  In (name node) (map var_name (variables regs)) ->
  ~ In (name node) SAFE_GLOBALS ->
  let out := emitted (PropertyRead context options node regs) in
  PropertyRead context options node regs
  = resolved regs
      (spec_policy context (Options.variables options)
         explicitThisVariables implicitThisVariables node)
  /\ (Options.variables options = "explicit" ->
      ((exists d, In d out /\ messageId d = explicitThisVariables)
       <-> receiver node = ImplicitReceiver))
  /\ (Options.variables options = "implicit" ->
      ((exists d, In d out /\ messageId d = implicitThisVariables)
       <-> receiver node = ThisReceiver))
  /\ (~ (Options.variables options = "explicit"
         /\ receiver node = ImplicitReceiver) ->
      ~ (Options.variables options = "implicit"
         /\ receiver node = ThisReceiver) ->
      out = []).
Proof.
  intros Hv Hg out. subst out.
  rewrite (read_variable context options node regs)
    by (try (now apply includes_not_In); now apply includes_In).
  cbn [emitted resolved].
  split; [reflexivity |]. split; [| split].
  - intros ->. rewrite policy_explicit_mode.
    destruct (receiver node); split; intros H.
    + reflexivity.
    + eexists. split; [left; reflexivity | reflexivity].
    + now destruct H as [d [[] _]].
    + discriminate.
    + now destruct H as [d [[] _]].
    + discriminate.
  - intros ->. rewrite policy_implicit_mode.
    destruct (receiver node); split; intros H.
    + now destruct H as [d [[] _]].
    + discriminate.
    + reflexivity.
    + eexists. split; [left; reflexivity | reflexivity].
    + now destruct H as [d [[] _]].
    + discriminate.
  - intros H1 H2. unfold spec_policy.
    destruct (receiver node); [| | reflexivity].
    + destruct (String.eqb_spec (Options.variables options) "explicit");
        [exfalso; auto | reflexivity].
    + destruct (String.eqb_spec (Options.variables options) "implicit");
        [exfalso; auto | reflexivity].
Qed.

Lemma C3_variable_tier_policy_witness :
  PropertyRead (contextOf LoopVariable.text) defaultOptions LoopVariable.read
    LoopVariable.registered
  = resolved LoopVariable.registered
      [mkReport implicitThisVariables "item"
         (mkSourceLocation (mkLoc 1 34) (mkLoc 1 43))
         (replaceTextRange (34, 39) "")].
Proof.
  refine (proj1 (C3_variable_tier_policy
                   (contextOf LoopVariable.text) defaultOptions
                   LoopVariable.read LoopVariable.registered _ _)).
  - cbn. auto.
  - not_in.
Defined.

(** ** C4 *)

(** C4: a read whose name is in [SAFE_GLOBALS] (that is, [$event]) is
    never reported, whatever the options, the receiver, the registries and
    the parent chain are: the visit returns with no report. *)
Theorem C4_safe_global_never_reported
    (context : RuleContext) (options : Options.t)
    (node : PropertyReadWithParent) (regs : Registries) :
  In (name node) SAFE_GLOBALS ->
  PropertyRead context options node regs = resolved regs []
  /\ emitted (PropertyRead context options node regs) = [].
Proof.
  intros H. apply includes_In in H.
  rewrite (read_safe_global context options node regs H). now split.
Qed.

Lemma C4_safe_global_never_reported_witness :
  In "$event" SAFE_GLOBALS
  /\ PropertyRead (contextOf EventBinding.text)
       (Options.mk "explicit" "explicit" "explicit") EventBinding.read
       createRuleListener
     = resolved createRuleListener [].
Proof.
  split; [cbn; auto |].
  refine (proj1 (C4_safe_global_never_reported
                   (contextOf EventBinding.text)
                   (Options.mk "explicit" "explicit" "explicit")
                   EventBinding.read createRuleListener _)).
  cbn. auto.
Defined.

(** ** C5 *)

(** C5, as stated, fails: the safe-global check comes before the
    input-variable tier.  With [$event] in both registries,
    [variables = "explicit"] and an implicit receiver, the policy for
    [variables] asks for an [explicitThisVariables] violation, yet the
    visit reports nothing: the read is not resolved in the input-variable
    tier. *)
Lemma C5_safe_global_counterexample :
  In (name EventShadowed.read)
     (map var_name (variables EventShadowed.registered))
  /\ In (name EventShadowed.read)
       (map ref_name (templates EventShadowed.registered))
  /\ spec_policy (contextOf EventShadowed.text) "explicit"
       explicitThisVariables implicitThisVariables EventShadowed.read
     = [descriptor (contextOf EventShadowed.text) true explicitThisVariables
          EventShadowed.read]
  /\ PropertyRead (contextOf EventShadowed.text)
       (Options.mk "explicit" "explicit" "implicit") EventShadowed.read
       EventShadowed.registered
     = resolved EventShadowed.registered [].
Proof.
  repeat split; try reflexivity; cbn; auto.
Qed.

(** C5, amended: a read whose name is not a safe global and is registered
    both as an input variable and as a template reference is resolved in
    the input-variable tier.  The visit reports exactly what the
    two-branch policy gives for [variables]; every violation it yields is
    of a variables kind, never of a template-references kind; and the
    outcome is the same under any options that agree on [variables]. *)
Theorem C5_variables_before_references
    (context : RuleContext) (options : Options.t)
    (node : PropertyReadWithParent) (regs : Registries) :
  In (name node) (map var_name (variables regs)) ->
  In (name node) (map ref_name (templates regs)) ->
  ~ In (name node) SAFE_GLOBALS ->
  PropertyRead context options node regs
  = resolved regs
      (spec_policy context (Options.variables options)
         explicitThisVariables implicitThisVariables node)
  /\ (forall d, In d (emitted (PropertyRead context options node regs)) ->
        messageId d = explicitThisVariables
        \/ messageId d = implicitThisVariables)
  /\ (forall options',
        Options.variables options' = Options.variables options ->
        PropertyRead context options' node regs
        = PropertyRead context options node regs).
Proof.
  intros Hv _ Hg. apply includes_In in Hv. apply includes_not_In in Hg.
  split; [| split].
  - apply (read_variable context options node regs Hg Hv).
  - rewrite (read_variable context options node regs Hg Hv).
    unfold spec_policy. cbn.
    destruct (receiver node);
      [destruct (String.eqb _ _) | destruct (String.eqb _ _) |];
      cbn; intros d H; intuition (subst; auto).
  - intros options' E.
    now rewrite !(read_variable context _ node regs Hg Hv), E.
Qed.

Lemma C5_variables_before_references_witness :
  PropertyRead (contextOf Shadowed.text)
    (Options.mk "explicit" "implicit" "explicit") Shadowed.read
    Shadowed.registered
  = resolved Shadowed.registered
      [mkReport implicitThisVariables "item"
         (mkSourceLocation (mkLoc 1 31) (mkLoc 1 40))
         (replaceTextRange (31, 36) "")].
Proof.
  refine (proj1 (C5_variables_before_references
                   (contextOf Shadowed.text)
                   (Options.mk "explicit" "implicit" "explicit")
                   Shadowed.read Shadowed.registered _ _ _)).
  - cbn. auto.
  - cbn. auto.
  - not_in.
Defined.

(** ** C6 *)

(** C6: a visit of a property read reports nothing or exactly one
    violation, whose message identifier is one of the six kinds. *)
Theorem C6_at_most_one_violation
    (context : RuleContext) (options : Options.t)
    (node : PropertyReadWithParent) (regs : Registries) :
  emitted (PropertyRead context options node regs) = []
  \/ exists d,
       emitted (PropertyRead context options node regs) = [d]
       /\ In (messageId d) allMessageIds.
Proof.
  destruct (read_cases context options node regs)
    as [E | [(e & m & E & _) | E]]; rewrite E; cbn.
  - now left.
  - right. eexists. split; [reflexivity |].
    cbn. destruct m; intuition.
  - now left.
Qed.

(** ** C7 *)

(** C7, as stated, fails: the safe-global check comes before every tier.
    In [<div *ngIf='ok; then this.$event'></div>] the name is in neither
    registry, the host two levels up is [ngIfThen], [templateReferences]
    is ["implicit"] and the receiver is [this], yet nothing is reported. *)
Lemma C7_safe_global_counterexample :
  ~ In (name ThenEvent.read) (map var_name (variables createRuleListener))
  /\ ~ In (name ThenEvent.read) (map ref_name (templates createRuleListener))
  /\ parent ThenEvent.read = inBinding "ngIfThen"
  /\ In "ngIfThen" SAFE_STRUCTURAL_DIRECTIVES
  /\ receiver ThenEvent.read = ThisReceiver
  /\ PropertyRead (contextOf ThenEvent.text) defaultOptions ThenEvent.read
       createRuleListener
     = resolved createRuleListener [].
Proof.
  repeat split; try reflexivity; cbn; auto.
Qed.

(** C7, amended: for every read whose name is not a safe global and is in
    neither registry, and whose host two levels up has a name in
    [SAFE_STRUCTURAL_DIRECTIVES]: with [templateReferences = "implicit"]
    and the [this] receiver the visit reports one violation, of kind
    [implicitThisTemplateReferences]. *)
Theorem C7_safe_directive_applies_reference_policy
    (context : RuleContext) (options : Options.t)
    (node : PropertyReadWithParent) (regs : Registries)
    (p g : AstParent) (host : string) :
  ~ In (name node) SAFE_GLOBALS ->
  ~ In (name node) (map var_name (variables regs)) ->
  ~ In (name node) (map ref_name (templates regs)) ->
  parent node = Some p ->
  anc_parent p = Some g ->
  anc_name g = Some host ->
  In host SAFE_STRUCTURAL_DIRECTIVES ->
  Options.templateReferences options = "implicit" ->
  receiver node = ThisReceiver ->
  PropertyRead context options node regs
  = resolved regs
      [descriptor context false implicitThisTemplateReferences node].
Proof.
  intros Hg Hv Ht Hp Hpp Hn Hh Hm Hr.
  rewrite (read_safe_directive context options node regs p g);
    try (now apply includes_not_In); try assumption.
  - now rewrite Hm, policy_implicit_mode, Hr.
  - rewrite Hn. now apply includes_In.
Qed.

Lemma C7_safe_directive_applies_reference_policy_witness :
  PropertyRead (contextOf ThenPointer.text) defaultOptions ThenPointer.read
    createRuleListener
  = resolved createRuleListener
      [mkReport implicitThisTemplateReferences "tpl"
         (mkSourceLocation (mkLoc 1 21) (mkLoc 1 29))
         (replaceTextRange (21, 26) "")].
Proof.
  apply (C7_safe_directive_applies_reference_policy
           (contextOf ThenPointer.text) defaultOptions ThenPointer.read
           createRuleListener
           (mkAstParent None (Some (mkAstParent (Some "ngIfThen") None)))
           (mkAstParent (Some "ngIfThen") None) "ngIfThen").
  - not_in.
  - not_in.
  - not_in.
  - reflexivity.
  - reflexivity.
  - reflexivity.
  - cbn. auto.
  - reflexivity.
  - reflexivity.
Defined.

(** ** C8 *)

(** C8: the source code service maps the start offset of the read to a
    location and back to the same offset, as ESLint's does for an offset
    inside the text.  Then every violation that a visit reports carries
    one of two fixes, anchored at that offset: a violation that asks for
    the qualifier (the receiver was implicit) inserts ["this."] at the
    empty range [[start, start]]; a violation that asks for its removal
    (the receiver was [this]) replaces the range [[start, start + 5]],
    five being the length of ["this."], by the empty text. *)
Theorem C8_fix_shape
    (context : RuleContext) (options : Options.t)
    (node : PropertyReadWithParent) (regs : Registries)
    (d : ReportDescriptor) :
  getIndexFromLoc (getSourceCode context)
    (getLocFromIndex (getSourceCode context) (start (sourceSpan node)))
  = start (sourceSpan node) ->
  In d (emitted (PropertyRead context options node regs)) ->
  (demandsExplicit (messageId d) = true
   /\ receiver node = ImplicitReceiver
   /\ fix_ d = insertTextBeforeRange
                 (start (sourceSpan node), start (sourceSpan node)) "this.")
  \/ (demandsExplicit (messageId d) = false
      /\ receiver node = ThisReceiver
      /\ fix_ d = replaceTextRange
                    (start (sourceSpan node), start (sourceSpan node) + 5) ""
      /\ 5 = Z.of_nat (String.length "this.")).
Proof.
  intros Hround Hd.
  destruct (read_cases context options node regs)
    as [E | [(e & m & E & Hm & Hr) | E]]; rewrite E in Hd; cbn in Hd;
    try contradiction.
  destruct Hd as [<- | []]. unfold descriptor. cbn. rewrite Hround.
  destruct e; [left | right]; repeat split; assumption.
Qed.

Lemma C8_fix_shape_witness :
  In (mkReport implicitThisVariables "item"
        (mkSourceLocation (mkLoc 1 34) (mkLoc 1 43))
        (replaceTextRange (34, 39) ""))
     (emitted (PropertyRead (contextOf LoopVariable.text) defaultOptions
                 LoopVariable.read LoopVariable.registered))
  /\ ((demandsExplicit implicitThisVariables = true
       /\ receiver LoopVariable.read = ImplicitReceiver
       /\ replaceTextRange (34, 39) "" = insertTextBeforeRange (34, 34) "this.")
      \/ (demandsExplicit implicitThisVariables = false
          /\ receiver LoopVariable.read = ThisReceiver
          /\ replaceTextRange (34, 39) "" = replaceTextRange (34, 34 + 5) ""
          /\ 5 = Z.of_nat (String.length "this."))).
Proof.
  split; [left; reflexivity |].
  refine (C8_fix_shape (contextOf LoopVariable.text) defaultOptions
            LoopVariable.read LoopVariable.registered
            (mkReport implicitThisVariables "item"
               (mkSourceLocation (mkLoc 1 34) (mkLoc 1 43))
               (replaceTextRange (34, 39) "")) _ _).
  - reflexivity.
  - left. reflexivity.
Defined.

(** ** C9 *)

(** C9: a visit of a property read leaves both registries as they were,
    whether it returns or throws.  A visit of a template appends the
    template's variables and references, a visit of an element appends the
    element's references, and over a whole traversal each registry is its
    former content followed by what was appended: nothing is ever
    removed. *)
Theorem C9_registries_only_grow
    (context : RuleContext) (options : Options.t) :
  (forall node regs,
     registries (PropertyRead context options node regs) = regs)
  /\ (forall node regs,
        registries (Template node regs)
        = mkRegistries (variables regs ++ tpl_variables node)
                       (templates regs ++ tpl_references node))
  /\ (forall node regs,
        registries (Element node regs)
        = mkRegistries (variables regs)
                       (templates regs ++ el_references node))
  /\ (forall vs regs,
        exists xs ys,
          registries (traverse context options vs regs)
          = mkRegistries (variables regs ++ xs) (templates regs ++ ys)).
Proof.
  split; [| split; [| split]].
  - apply read_registries.
  - intros node regs. now rewrite Template_run.
  - intros node regs. now rewrite Element_run.
  - apply traverse_grows.
Qed.

(** * Further properties of the listener *)

(** ** The callback by tiers *)

Lemma read_by_tier (context : RuleContext) (options : Options.t)
    (node : PropertyReadWithParent) (regs : Registries) :
  PropertyRead context options node regs
  = match receiver node, classify regs node with
    | OtherReceiver, _ => resolved regs []
    | _, Some t => resolved regs (tierReports context options t node)
    | _, None => mkOutcome (Throw TypeError) regs []
    end.
Proof.
  destruct (receiver node) eqn:Hr.
  3: { now apply read_other_receiver. }
  all: unfold classify, grandparent.
  all: destruct (includes SAFE_GLOBALS (name node)) eqn:Hg;
    [now apply read_safe_global |].
  all: destruct (includes (map var_name (variables regs)) (name node)) eqn:Hv;
    [now apply read_variable |].
  all: destruct (includes (map ref_name (templates regs)) (name node)) eqn:Ht;
    [now apply read_reference |].
  all: destruct (parent node) as [p|] eqn:Hp;
    [| apply read_missing_ancestor; auto; try congruence; now rewrite Hp].
  all: destruct (anc_parent p) as [g|] eqn:Hpp;
    [| apply read_missing_ancestor; auto; try congruence; now rewrite Hp].
  all: destruct (includes_value SAFE_STRUCTURAL_DIRECTIVES (anc_name g)) eqn:Hd;
    [now apply (read_safe_directive context options node regs p g)
    | now apply (read_plain_property context options node regs p g)].
Qed.

Lemma policy_report (context : RuleContext) (mode : string)
    (e i : MessageIds) (node : PropertyReadWithParent) (d : ReportDescriptor) :
  In d (spec_policy context mode e i node) ->
  (mode = "explicit" /\ receiver node = ImplicitReceiver
   /\ d = descriptor context true e node)
  \/ (mode = "implicit" /\ receiver node = ThisReceiver
      /\ d = descriptor context false i node).
Proof.
  unfold spec_policy. destruct (receiver node).
  - destruct (String.eqb_spec mode "explicit"); cbn; intuition.
  - destruct (String.eqb_spec mode "implicit"); cbn; intuition.
  - intros [].
Qed.

Lemma policy_flipped (context : RuleContext) (mode : string)
    (e i : MessageIds) (node : PropertyReadWithParent)
    (span : AbsoluteSourceSpan) :
  spec_policy context mode e i node <> [] ->
  spec_policy context mode e i (respelled node span) = [].
Proof.
  unfold spec_policy, respelled. cbn. destruct (receiver node); cbn.
  - destruct (String.eqb_spec mode "explicit"); [subst | congruence].
    reflexivity.
  - destruct (String.eqb_spec mode "implicit"); [subst | congruence].
    reflexivity.
  - congruence.
Qed.

Lemma emitted_follows_option (context : RuleContext) (options : Options.t)
    (node : PropertyReadWithParent) (regs : Registries)
    (d : ReportDescriptor) :
  In d (emitted (PropertyRead context options node regs)) ->
  optionOf (messageId d) options = modeOf (messageId d)
  /\ receiver node = (if demandsExplicit (messageId d)
                      then ImplicitReceiver else ThisReceiver).
Proof.
  rewrite read_by_tier.
  destruct (receiver node) eqn:Hr; destruct (classify regs node) as [[]|];
    cbn; try (intros []); intros H;
    apply policy_report in H; rewrite Hr in H;
    destruct H as [(Hm & H' & ->) | (Hm & H' & ->)];
    try discriminate; cbn; now split.
Qed.

Lemma policy_invalid_mode (context : RuleContext) (mode : string)
    (e i : MessageIds) (node : PropertyReadWithParent) :
  mode <> "explicit" -> mode <> "implicit" ->
  spec_policy context mode e i node = [].
Proof.
  intros He Hi. unfold spec_policy. destruct (receiver node).
  - now destruct (String.eqb_spec mode "explicit").
  - now destruct (String.eqb_spec mode "implicit").
  - reflexivity.
Qed.

Lemma includes_ext (l1 l2 : list string) (x : string) :
  (In x l1 <-> In x l2) -> includes l1 x = includes l2 x.
Proof.
  intros H. destruct (includes l2 x) eqn:E.
  - apply includes_In, H, includes_In, E.
  - apply includes_not_In. intros K. apply H in K.
    apply includes_In in K. congruence.
Qed.

Lemma classify_respelled (regs : Registries) (node : PropertyReadWithParent)
    (span : AbsoluteSourceSpan) :
  classify regs (respelled node span) = classify regs node.
Proof. reflexivity. Qed.

(** ** Reads that are ignored, and reads without ancestors *)

(** X1: a read off anything but the implicit receiver or [this] is
    ignored: the visit returns without a report and without looking at the
    options, the registries or the parent chain, so it cannot throw even
    when the chain is missing. *)
Theorem other_receiver_ignored
    (context : RuleContext) (options : Options.t)
    (node : PropertyReadWithParent) (regs : Registries) :
  receiver node = OtherReceiver ->
  PropertyRead context options node regs = resolved regs [].
Proof.
  intros H. rewrite read_by_tier, H. reflexivity.
Qed.

Lemma other_receiver_ignored_witness :
  PropertyRead (contextOf Orphan.text) defaultOptions
    (mkPropertyRead "name" OtherReceiver (mkSpan 3 7) None) createRuleListener
  = resolved createRuleListener [].
Proof.
  apply (other_receiver_ignored (contextOf Orphan.text) defaultOptions
           (mkPropertyRead "name" OtherReceiver (mkSpan 3 7) None)
           createRuleListener).
  reflexivity.
Defined.

(** X2: a read that gets as far as [node.parent.parent.name] (its
    receiver is implicit or [this], its name is no safe global and is in
    neither registry) and whose parent, or whose parent's parent, is
    missing makes the visit throw the [TypeError] of that member access.
    The visit has then reported nothing and has left the registries as
    they were, whatever the options are. *)
Theorem missing_ancestor_throws
    (context : RuleContext) (options : Options.t)
    (node : PropertyReadWithParent) (regs : Registries) :
  receiver node <> OtherReceiver ->
  ~ In (name node) SAFE_GLOBALS ->
  ~ In (name node) (map var_name (variables regs)) ->
  ~ In (name node) (map ref_name (templates regs)) ->
  grandparent node = None ->
  PropertyRead context options node regs
  = mkOutcome (Throw TypeError) regs [].
Proof.
  intros Hr Hg Hv Ht Hp. apply includes_not_In in Hg, Hv, Ht.
  rewrite read_by_tier. unfold classify. rewrite Hg, Hv, Ht, Hp.
  destruct (receiver node); [reflexivity | reflexivity | congruence].
Qed.

Lemma missing_ancestor_throws_witness :
  PropertyRead (contextOf Orphan.text)
    (Options.mk "implicit" "explicit" "explicit") Orphan.readUnderRoot
    (mkRegistries [mkVariableAst "item" "$implicit"] [mkReferenceAst "tpl"])
  = mkOutcome (Throw TypeError)
      (mkRegistries [mkVariableAst "item" "$implicit"] [mkReferenceAst "tpl"])
      [].
Proof.
  apply (missing_ancestor_throws (contextOf Orphan.text)
           (Options.mk "implicit" "explicit" "explicit") Orphan.readUnderRoot
           (mkRegistries [mkVariableAst "item" "$implicit"]
                         [mkReferenceAst "tpl"])).
  - discriminate.
  - not_in.
  - not_in.
  - not_in.
  - reflexivity.
Defined.

(** ** What a report says *)

(** X4: every report of a read names the read ([data.prop] is
    [node.name]) and is located at the read's span, from the location of
    [sourceSpan.start] to the location of [sourceSpan.end]. *)
Theorem report_names_and_locates_the_read
    (context : RuleContext) (options : Options.t)
    (node : PropertyReadWithParent) (regs : Registries)
    (d : ReportDescriptor) :
  In d (emitted (PropertyRead context options node regs)) ->
  data_prop d = name node
  /\ loc d = mkSourceLocation
               (getLocFromIndex (getSourceCode context)
                  (start (sourceSpan node)))
               (getLocFromIndex (getSourceCode context)
                  (end_ (sourceSpan node))).
Proof.
  intros H.
  destruct (read_cases context options node regs)
    as [E | [(e & m & E & _) | E]]; rewrite E in H; cbn in H;
    try contradiction.
  destruct H as [<- | []]. split; reflexivity.
Qed.

Lemma report_names_and_locates_the_read_witness :
  data_prop (descriptor (contextOf LoopVariable.text) false
               implicitThisVariables LoopVariable.read) = "item"
  /\ loc (descriptor (contextOf LoopVariable.text) false
            implicitThisVariables LoopVariable.read)
     = mkSourceLocation (mkLoc 1 34) (mkLoc 1 43).
Proof.
  refine (report_names_and_locates_the_read
            (contextOf LoopVariable.text) defaultOptions
            LoopVariable.read LoopVariable.registered
            (descriptor (contextOf LoopVariable.text) false
               implicitThisVariables LoopVariable.read) _).
  left. reflexivity.
Defined.

(** X5: a report is only made on behalf of an option that asks for it: a
    report of an explicit kind means that the option of its group is
    ["explicit"] and the receiver is implicit, a report of an implicit
    kind means that the option of its group is ["implicit"] and the
    receiver is [this]. *)
Theorem report_follows_its_option
    (context : RuleContext) (options : Options.t)
    (node : PropertyReadWithParent) (regs : Registries)
    (d : ReportDescriptor) :
  In d (emitted (PropertyRead context options node regs)) ->
  optionOf (messageId d) options = modeOf (messageId d)
  /\ receiver node = (if demandsExplicit (messageId d)
                      then ImplicitReceiver else ThisReceiver).
Proof.
  apply emitted_follows_option.
Qed.

Lemma report_follows_its_option_witness :
  optionOf implicitThisVariables defaultOptions = "implicit"
  /\ receiver LoopVariable.read = ThisReceiver.
Proof.
  refine (report_follows_its_option
            (contextOf LoopVariable.text) defaultOptions
            LoopVariable.read LoopVariable.registered
            (descriptor (contextOf LoopVariable.text) false
               implicitThisVariables LoopVariable.read) _).
  left. reflexivity.
Defined.

(** X6: the kind of a report tells the tier that made it: a variables
    kind means that the name is in the [variables] registry; a
    template-references kind means that it is not, and that it is in the
    [templates] registry or the host two levels up is a safe structural
    directive; a properties kind means that the name is in neither
    registry and the host is no safe structural directive. *)
Theorem report_kind_tells_the_tier
    (context : RuleContext) (options : Options.t)
    (node : PropertyReadWithParent) (regs : Registries)
    (d : ReportDescriptor) :
  In d (emitted (PropertyRead context options node regs)) ->
  ~ In (name node) SAFE_GLOBALS
  /\ match messageId d with
     | explicitThisVariables | implicitThisVariables =>
         In (name node) (map var_name (variables regs))
     | explicitThisTemplateReferences | implicitThisTemplateReferences =>
         ~ In (name node) (map var_name (variables regs))
         /\ (In (name node) (map ref_name (templates regs))
             \/ exists g host,
                  grandparent node = Some g /\ anc_name g = Some host
                  /\ In host SAFE_STRUCTURAL_DIRECTIVES)
     | explicitThisProperties | implicitThisProperties =>
         ~ In (name node) (map var_name (variables regs))
         /\ ~ In (name node) (map ref_name (templates regs))
         /\ exists g,
              grandparent node = Some g
              /\ includes_value SAFE_STRUCTURAL_DIRECTIVES (anc_name g) = false
     end.
Proof.
  rewrite read_by_tier. unfold classify.
  assert (R : receiver node = OtherReceiver \/ receiver node <> OtherReceiver)
    by (destruct (receiver node); [right | right | left]; congruence).
  destruct R as [R | R]; [rewrite R; intros [] |].
  assert (K : forall t,
    In d (match receiver node with
          | OtherReceiver => emitted (resolved regs [])
          | _ => emitted (resolved regs (tierReports context options t node))
          end) ->
    In d (tierReports context options t node))
    by (intros t; destruct (receiver node); [auto | auto | congruence]).
  destruct (includes SAFE_GLOBALS (name node)) eqn:Hg.
  { destruct (receiver node); intros []. }
  apply includes_not_In in Hg.
  destruct (includes (map var_name (variables regs)) (name node)) eqn:Hv.
  { apply includes_In in Hv. intros H.
    assert (H' := K InputVariable
                    ltac:(destruct (receiver node); exact H)).
    apply policy_report in H'.
    destruct H' as [(_ & _ & ->) | (_ & _ & ->)]; cbn; now split. }
  apply includes_not_In in Hv.
  destruct (includes (map ref_name (templates regs)) (name node)) eqn:Ht.
  { apply includes_In in Ht. intros H.
    assert (H' := K TemplateReference
                    ltac:(destruct (receiver node); exact H)).
    apply policy_report in H'.
    destruct H' as [(_ & _ & ->) | (_ & _ & ->)]; cbn; auto. }
  apply includes_not_In in Ht.
  destruct (grandparent node) as [g|] eqn:Hgp.
  2: { destruct (receiver node); intros []. }
  destruct (includes_value SAFE_STRUCTURAL_DIRECTIVES (anc_name g)) eqn:Hd.
  - intros H.
    assert (H' := K DirectiveSafeReference
                    ltac:(destruct (receiver node); exact H)).
    apply policy_report in H'.
    assert (Hhost : exists g0 host,
               Some g = Some g0 /\ anc_name g0 = Some host
               /\ In host SAFE_STRUCTURAL_DIRECTIVES).
    { destruct (anc_name g) as [host|] eqn:Hn; [| discriminate].
      exists g, host. repeat split; auto. now apply includes_In. }
    destruct H' as [(_ & _ & ->) | (_ & _ & ->)]; cbn; auto.
  - intros H.
    assert (H' := K PlainProperty
                    ltac:(destruct (receiver node); exact H)).
    apply policy_report in H'.
    destruct H' as [(_ & _ & ->) | (_ & _ & ->)]; cbn;
      (split; [assumption |]); (split; [assumption |]);
      (split; [assumption |]); exists g; now split.
Qed.

Lemma report_kind_tells_the_tier_witness :
  ~ In "tpl" SAFE_GLOBALS
  /\ (~ In "tpl" (map var_name (variables createRuleListener))
      /\ (In "tpl" (map ref_name (templates createRuleListener))
          \/ exists g host,
               grandparent ThenPointer.read = Some g
               /\ anc_name g = Some host
               /\ In host SAFE_STRUCTURAL_DIRECTIVES)).
Proof.
  refine (report_kind_tells_the_tier
            (contextOf ThenPointer.text) defaultOptions
            ThenPointer.read createRuleListener
            (descriptor (contextOf ThenPointer.text) false
               implicitThisTemplateReferences ThenPointer.read) _).
  left. reflexivity.
Defined.

(** ** The two spellings of a read *)

(** X7: of the two spellings of a read, at most one is reported.  When a
    visit reports a read, a visit of the same read with the other
    receiver (as it stands once the fix is applied, whatever its span
    then is), with the same options and registries, returns without a
    report. *)
Theorem reported_read_respelled_is_accepted
    (context : RuleContext) (options : Options.t)
    (node : PropertyReadWithParent) (regs : Registries)
    (span : AbsoluteSourceSpan) :
  emitted (PropertyRead context options node regs) <> [] ->
  PropertyRead context options (respelled node span) regs = resolved regs [].
Proof.
  rewrite !read_by_tier, classify_respelled.
  destruct (classify regs node) as [t|].
  - intros H.
    assert (Ht : tierReports context options t node <> [])
      by (destruct (receiver node); cbn in H; congruence).
    assert (Hf : tierReports context options t (respelled node span) = [])
      by (destruct t; cbn in *; try congruence; now apply policy_flipped).
    rewrite Hf. now destruct (receiver (respelled node span)).
  - destruct (receiver node); cbn; congruence.
Qed.

Lemma reported_read_respelled_is_accepted_witness :
  PropertyRead (contextOf LoopVariable.text) defaultOptions
    (mkPropertyRead "item" ImplicitReceiver (mkSpan 34 38) inInterpolation)
    LoopVariable.registered
  = resolved LoopVariable.registered [].
Proof.
  apply (reported_read_respelled_is_accepted
           (contextOf LoopVariable.text) defaultOptions LoopVariable.read
           LoopVariable.registered (mkSpan 34 38)).
  discriminate.
Defined.

(** ** What a read depends on *)

(** X8: a visit of a read consults one option only: for every read and
    registries there is one of [properties], [variables] and
    [templateReferences] such that any two option objects that agree on
    it give the same outcome. *)
Theorem one_option_decides
    (context : RuleContext) (node : PropertyReadWithParent)
    (regs : Registries) :
  (forall o1 o2, Options.properties o1 = Options.properties o2 ->
     PropertyRead context o1 node regs = PropertyRead context o2 node regs)
  \/ (forall o1 o2, Options.variables o1 = Options.variables o2 ->
        PropertyRead context o1 node regs = PropertyRead context o2 node regs)
  \/ (forall o1 o2,
        Options.templateReferences o1 = Options.templateReferences o2 ->
        PropertyRead context o1 node regs = PropertyRead context o2 node regs).
Proof.
  assert (K : forall o1 o2 t,
    classify regs node = Some t ->
    tierReports context o1 t node = tierReports context o2 t node ->
    PropertyRead context o1 node regs = PropertyRead context o2 node regs).
  { intros o1 o2 t Hc E. rewrite !read_by_tier, Hc, E. reflexivity. }
  destruct (classify regs node) as [t|] eqn:Hc.
  - destruct t.
    + left. intros o1 o2 _. now apply (K o1 o2 SafeGlobal).
    + right; left. intros o1 o2 E. apply (K o1 o2 InputVariable eq_refl).
      cbn. now rewrite E.
    + right; right. intros o1 o2 E. apply (K o1 o2 TemplateReference eq_refl).
      cbn. now rewrite E.
    + right; right. intros o1 o2 E.
      apply (K o1 o2 DirectiveSafeReference eq_refl). cbn. now rewrite E.
    + left. intros o1 o2 E. apply (K o1 o2 PlainProperty eq_refl).
      cbn. now rewrite E.
  - left. intros o1 o2 _. rewrite !read_by_tier, Hc. reflexivity.
Qed.

(** X9: for a read in a binding of a safe structural directive
    ([ngIfThen], [ngIfElse], [ngTemplateOutlet]) it makes no difference
    whether its name is in the [templates] registry yet: unless the name
    is a safe global or an input variable, the visit reports what the
    two-branch policy gives for [templateReferences], whatever the
    [templates] registry holds. *)
Theorem safe_directive_needs_no_registration
    (context : RuleContext) (options : Options.t)
    (node : PropertyReadWithParent) (vars : list VariableAst)
    (g : AstParent) (host : string) (refs : list ReferenceAst) :
  ~ In (name node) SAFE_GLOBALS ->
  ~ In (name node) (map var_name vars) ->
  grandparent node = Some g ->
  anc_name g = Some host ->
  In host SAFE_STRUCTURAL_DIRECTIVES ->
  PropertyRead context options node (mkRegistries vars refs)
  = resolved (mkRegistries vars refs)
      (spec_policy context (Options.templateReferences options)
         explicitThisTemplateReferences implicitThisTemplateReferences node).
Proof.
  intros Hg Hv Hgp Hn Hh. rewrite read_by_tier. unfold classify.
  apply includes_not_In in Hg, Hv. cbn [variables templates].
  rewrite Hg, Hv, Hgp, Hn. cbn [includes_value].
  apply includes_In in Hh.
  replace (includes_value SAFE_STRUCTURAL_DIRECTIVES (Some host)) with true
    by (symmetry; exact Hh).
  destruct (includes (map ref_name refs) (name node));
    unfold tierReports, spec_policy; destruct (receiver node); reflexivity.
Qed.

Lemma safe_directive_needs_no_registration_witness :
  PropertyRead (contextOf ThenPointer.text) defaultOptions ThenPointer.read
    (mkRegistries [] [])
  = resolved (mkRegistries [] [])
      [mkReport implicitThisTemplateReferences "tpl"
         (mkSourceLocation (mkLoc 1 21) (mkLoc 1 29))
         (replaceTextRange (21, 26) "")]
  /\ PropertyRead (contextOf ThenPointer.text) defaultOptions ThenPointer.read
       (mkRegistries [] [mkReferenceAst "tpl"])
     = resolved (mkRegistries [] [mkReferenceAst "tpl"])
         [mkReport implicitThisTemplateReferences "tpl"
            (mkSourceLocation (mkLoc 1 21) (mkLoc 1 29))
            (replaceTextRange (21, 26) "")].
Proof.
  split;
    apply (safe_directive_needs_no_registration
             (contextOf ThenPointer.text) defaultOptions ThenPointer.read []
             (mkAstParent (Some "ngIfThen") None) "ngIfThen");
    try reflexivity; try not_in; cbn; auto.
Defined.

(** X10: the registries are consulted for membership of the name only.
    Two pairs of registries that hold the same variable names and the same
    reference names, in whatever order and however often, give the same
    completion and the same reports. *)
Theorem only_membership_matters
    (context : RuleContext) (options : Options.t)
    (node : PropertyReadWithParent) (r1 r2 : Registries) :
  (forall x, In x (map var_name (variables r1))
             <-> In x (map var_name (variables r2))) ->
  (forall x, In x (map ref_name (templates r1))
             <-> In x (map ref_name (templates r2))) ->
  completion (PropertyRead context options node r1)
  = completion (PropertyRead context options node r2)
  /\ emitted (PropertyRead context options node r1)
     = emitted (PropertyRead context options node r2).
Proof.
  intros Hv Ht. rewrite !read_by_tier.
  assert (E : classify r1 node = classify r2 node).
  { unfold classify.
    now rewrite (includes_ext _ _ _ (Hv (name node))),
                (includes_ext _ _ _ (Ht (name node))). }
  rewrite E.
  destruct (receiver node); destruct (classify r2 node); now split.
Qed.

Lemma only_membership_matters_witness :
  completion (PropertyRead (contextOf Shadowed.text) defaultOptions
                Shadowed.read Shadowed.registered)
  = completion (PropertyRead (contextOf Shadowed.text) defaultOptions
                  Shadowed.read
                  (mkRegistries
                     [mkVariableAst "item" "index"; mkVariableAst "item" "$implicit"]
                     [mkReferenceAst "item"; mkReferenceAst "item"]))
  /\ emitted (PropertyRead (contextOf Shadowed.text) defaultOptions
                Shadowed.read Shadowed.registered)
     = emitted (PropertyRead (contextOf Shadowed.text) defaultOptions
                  Shadowed.read
                  (mkRegistries
                     [mkVariableAst "item" "index"; mkVariableAst "item" "$implicit"]
                     [mkReferenceAst "item"; mkReferenceAst "item"])).
Proof.
  apply (only_membership_matters (contextOf Shadowed.text) defaultOptions
           Shadowed.read Shadowed.registered
           (mkRegistries
              [mkVariableAst "item" "index"; mkVariableAst "item" "$implicit"]
              [mkReferenceAst "item"; mkReferenceAst "item"]));
    intros x; cbn; tauto.
Defined.

(** ** Options *)

(** X11: an option that is neither ["explicit"] nor ["implicit"] asks for
    nothing: when none of the three options has one of the two values, no
    read is ever reported. *)
Theorem unknown_modes_report_nothing
    (context : RuleContext) (options : Options.t)
    (node : PropertyReadWithParent) (regs : Registries) :
  (forall m,
     In m [Options.properties options; Options.variables options;
           Options.templateReferences options] ->
     m <> "explicit" /\ m <> "implicit") ->
  emitted (PropertyRead context options node regs) = [].
Proof.
  intros H. rewrite read_by_tier.
  assert (P := H (Options.properties options) ltac:(cbn; auto)).
  assert (V := H (Options.variables options) ltac:(cbn; auto)).
  assert (T := H (Options.templateReferences options) ltac:(cbn; auto)).
  destruct (receiver node); destruct (classify regs node) as [[]|];
    cbn; try reflexivity; apply policy_invalid_mode; tauto.
Qed.

Lemma unknown_modes_report_nothing_witness :
  emitted (PropertyRead (contextOf LoopVariable.text)
             (Options.mk "always" "never" "off")
             LoopVariable.read LoopVariable.registered)
  = [].
Proof.
  apply (unknown_modes_report_nothing (contextOf LoopVariable.text)
           (Options.mk "always" "never" "off")
           LoopVariable.read LoopVariable.registered).
  intros m H. cbn in H.
  destruct H as [<- | [<- | [<- | []]]]; split; discriminate.
Defined.

(** X12: under the default options the rule reports three kinds only: a
    bare property ([explicitThisProperties]), a variable spelled with
    [this] ([implicitThisVariables]) and a template reference spelled with
    [this] ([implicitThisTemplateReferences]). *)
Theorem default_options_kinds
    (context : RuleContext) (node : PropertyReadWithParent)
    (regs : Registries) (d : ReportDescriptor) :
  In d (emitted (PropertyRead context defaultOptions node regs)) ->
  messageId d = explicitThisProperties
  \/ messageId d = implicitThisVariables
  \/ messageId d = implicitThisTemplateReferences.
Proof.
  intros H. apply emitted_follows_option in H. destruct H as [H _].
  destruct (messageId d); cbn in H; try discriminate; auto.
Qed.

Lemma default_options_kinds_witness :
  implicitThisVariables = explicitThisProperties
  \/ implicitThisVariables = implicitThisVariables
  \/ implicitThisVariables = implicitThisTemplateReferences.
Proof.
  refine (default_options_kinds (contextOf LoopVariable.text)
            LoopVariable.read LoopVariable.registered
            (descriptor (contextOf LoopVariable.text) false
               implicitThisVariables LoopVariable.read) _).
  left. reflexivity.
Defined.

(** ** Traversals *)

Lemma dispatch_emits_at_most_one (context : RuleContext)
    (options : Options.t) (v : Visit) (regs : Registries) :
  (length (emitted (dispatch context options v regs))
   <= (if isRead v then 1 else 0))%nat.
Proof.
  destruct v as [t | e | n]; cbn [dispatch isRead].
  - rewrite Template_run. cbn. lia.
  - rewrite Element_run. cbn. lia.
  - destruct (read_cases context options n regs)
      as [E | [(e & m & E & _) | E]]; rewrite E; cbn; lia.
Qed.

Lemma declaration_run (context : RuleContext) (options : Options.t)
    (v : Visit) (regs : Registries) :
  isRead v = false ->
  dispatch context options v regs
  = mkOutcome (Normal tt)
      (mkRegistries (variables regs ++ declaredVariables [v])
                    (templates regs ++ declaredReferences [v])) [].
Proof.
  destruct v as [t | e | n]; cbn [isRead dispatch]; intros H;
    try discriminate.
  - rewrite Template_run. cbn. now rewrite !app_nil_r.
  - rewrite Element_run. cbn. now rewrite !app_nil_r.
Qed.

(** X13: after a traversal that ran to its end the registries hold what
    they held before, followed by everything the visited templates and
    elements declare, in the order of the visits and with repetitions
    kept. *)
Theorem completed_traversal_registers_all
    (context : RuleContext) (options : Options.t)
    (vs : list Visit) (regs : Registries) :
  completion (traverse context options vs regs) = Normal tt ->
  registries (traverse context options vs regs)
  = mkRegistries (variables regs ++ declaredVariables vs)
                 (templates regs ++ declaredReferences vs).
Proof.
  apply traverse_declares.
Qed.

Lemma completed_traversal_registers_all_witness :
  registries (traverse (contextOf ForwardReference.text) defaultOptions
                ForwardReference.unit
                (mkRegistries [] [mkReferenceAst "input"]))
  = mkRegistries [] [mkReferenceAst "input"; mkReferenceAst "input"].
Proof.
  apply (completed_traversal_registers_all
           (contextOf ForwardReference.text) defaultOptions
           ForwardReference.unit (mkRegistries [] [mkReferenceAst "input"])).
  reflexivity.
Defined.

(** X14: a name that is registered as an input variable stays one for the
    rest of the traversal: whatever is visited afterwards, a read of that
    name has the same completion and the same reports as it has now.  The
    registries have no notion of leaving the template that declared the
    variable. *)
Theorem variable_stays_registered
    (context : RuleContext) (options : Options.t)
    (node : PropertyReadWithParent) (regs : Registries) (vs : list Visit) :
  In (name node) (map var_name (variables regs)) ->
  completion (PropertyRead context options node
                (registries (traverse context options vs regs)))
  = completion (PropertyRead context options node regs)
  /\ emitted (PropertyRead context options node
                (registries (traverse context options vs regs)))
     = emitted (PropertyRead context options node regs).
Proof.
  intros Hv.
  destruct (traverse_grows context options vs regs) as (xs & ys & E).
  rewrite E, !read_by_tier. unfold classify. cbn [variables templates].
  assert (Hv' : In (name node) (map var_name (variables regs ++ xs)))
    by (rewrite map_app; apply in_or_app; now left).
  apply includes_In in Hv, Hv'. rewrite Hv, Hv'.
  destruct (includes SAFE_GLOBALS (name node)); destruct (receiver node);
    now split.
Qed.

Lemma variable_stays_registered_witness :
  completion (PropertyRead (contextOf LoopVariable.text) defaultOptions
                LoopVariable.read
                (registries (traverse (contextOf LoopVariable.text)
                               defaultOptions ForwardReference.unit
                               LoopVariable.registered)))
  = Normal tt
  /\ emitted (PropertyRead (contextOf LoopVariable.text) defaultOptions
                LoopVariable.read
                (registries (traverse (contextOf LoopVariable.text)
                               defaultOptions ForwardReference.unit
                               LoopVariable.registered)))
     = [mkReport implicitThisVariables "item"
          (mkSourceLocation (mkLoc 1 34) (mkLoc 1 43))
          (replaceTextRange (34, 39) "")].
Proof.
  apply (variable_stays_registered (contextOf LoopVariable.text)
           defaultOptions LoopVariable.read LoopVariable.registered
           ForwardReference.unit).
  cbn. auto.
Defined.

(** X15: a traversal reports at most one violation for each property read
    it visits; visits of templates and elements report nothing. *)
Theorem reports_bounded_by_reads
    (context : RuleContext) (options : Options.t)
    (vs : list Visit) (regs : Registries) :
  (length (emitted (traverse context options vs regs)) <= countReads vs)%nat.
Proof.
  revert regs. induction vs as [|v vs IH]; intros regs.
  - cbn. lia.
  - rewrite traverse_cons. unfold bind, countReads. cbn [filter].
    pose proof (dispatch_emits_at_most_one context options v regs) as D.
    destruct (completion (dispatch context options v regs)).
    + cbn [emitted]. rewrite length_app.
      specialize (IH (registries (dispatch context options v regs))).
      unfold countReads in IH. destruct (isRead v); cbn [length]; lia.
    + cbn [emitted]. destruct (isRead v); cbn [length]; lia.
Qed.



(** X18: a traversal that visits no property read runs to its end,
    reports nothing and registers everything it declares. *)
Theorem declarations_only_traversal
    (context : RuleContext) (options : Options.t)
    (vs : list Visit) (regs : Registries) :
  countReads vs = 0%nat ->
  traverse context options vs regs
  = mkOutcome (Normal tt)
      (mkRegistries (variables regs ++ declaredVariables vs)
                    (templates regs ++ declaredReferences vs)) [].
Proof.
  revert regs. induction vs as [|v vs IH]; intros regs H.
  - destruct regs. cbn. now rewrite !app_nil_r.
  - unfold countReads in H. cbn [filter] in H.
    destruct (isRead v) eqn:Hv; [discriminate |].
    rewrite traverse_cons. unfold bind.
    rewrite (declaration_run context options v regs Hv). cbn -[traverse].
    rewrite (IH _ H). cbn. rewrite !app_nil_r.
    unfold declaredVariables, declaredReferences. cbn [flat_map].
    now rewrite <- !app_assoc.
Qed.

Lemma declarations_only_traversal_witness :
  traverse (contextOf BackwardReference.text) defaultOptions
    BackwardReference.before createRuleListener
  = mkOutcome (Normal tt) (mkRegistries [] [mkReferenceAst "input"]) [].
Proof.
  apply (declarations_only_traversal (contextOf BackwardReference.text)
           defaultOptions BackwardReference.before createRuleListener).
  reflexivity.
Defined.

(** ** Message and fix *)

(** X19: the text of a report and its fix say the same thing.  A report
    whose message begins with [Use explicit this] carries the fix that
    inserts ["this."]; a report whose message begins with
    [Don't use explicit this] carries the fix that removes it. *)
Theorem message_agrees_with_fix
    (context : RuleContext) (options : Options.t)
    (node : PropertyReadWithParent) (regs : Registries)
    (d : ReportDescriptor) :
  In d (emitted (PropertyRead context options node regs)) ->
  (String.prefix "Use explicit this" (messages (messageId d)) = true
   /\ isInsertion (fix_ d) = true)
  \/ (String.prefix "Don't use explicit this" (messages (messageId d)) = true
      /\ isInsertion (fix_ d) = false).
Proof.
  intros H.
  destruct (read_cases context options node regs)
    as [E | [(e & m & E & Hm & _) | E]]; rewrite E in H; cbn in H;
    try contradiction.
  destruct H as [<- | []]. cbn [messageId fix_ descriptor].
  destruct m; cbn in Hm; subst e; [left | right | left | right | left | right];
    split; reflexivity.
Qed.

Lemma message_agrees_with_fix_witness :
  (String.prefix "Use explicit this" (messages implicitThisVariables) = true
   /\ isInsertion (replaceTextRange (34, 39) "") = true)
  \/ (String.prefix "Don't use explicit this"
        (messages implicitThisVariables) = true
      /\ isInsertion (replaceTextRange (34, 39) "") = false).
Proof.
  refine (message_agrees_with_fix (contextOf LoopVariable.text)
            defaultOptions LoopVariable.read LoopVariable.registered
            (descriptor (contextOf LoopVariable.text) false
               implicitThisVariables LoopVariable.read) _).
  left. reflexivity.
Defined.

(** ** Reads in a row *)

(** X20: reads do not influence each other.  When each of a row of reads
    would return if visited on its own, visiting them one after the other
    returns, leaves the registries as they were and reports, in the order
    of the visits, what each read reports on its own. *)
Theorem reads_are_independent
    (context : RuleContext) (options : Options.t)
    (nodes : list PropertyReadWithParent) (regs : Registries) :
  (forall n, In n nodes ->
     completion (PropertyRead context options n regs) = Normal tt) ->
  traverse context options (map VisitPropertyRead nodes) regs
  = mkOutcome (Normal tt) regs
      (flat_map (fun n => emitted (PropertyRead context options n regs))
         nodes).
Proof.
  induction nodes as [|n nodes IH]; intros H.
  - reflexivity.
  - cbn [map flat_map]. rewrite traverse_cons. unfold bind.
    cbn [dispatch].
    pose proof (H n (or_introl eq_refl)) as Hn.
    pose proof (read_registries context options n regs) as Hr.
    rewrite Hn, Hr, IH by (intros k Hk; apply H; now right).
    reflexivity.
Qed.

Lemma reads_are_independent_witness :
  traverse (contextOf LoopVariable.text) defaultOptions
    (map VisitPropertyRead [LoopVariable.read; Orphan.readUnnamed])
    LoopVariable.registered
  = mkOutcome (Normal tt) LoopVariable.registered
      (emitted (PropertyRead (contextOf LoopVariable.text) defaultOptions
                  LoopVariable.read LoopVariable.registered)
       ++ emitted (PropertyRead (contextOf LoopVariable.text) defaultOptions
                     Orphan.readUnnamed LoopVariable.registered)
       ++ []).
Proof.
  apply (reads_are_independent (contextOf LoopVariable.text) defaultOptions
           [LoopVariable.read; Orphan.readUnnamed] LoopVariable.registered).
  intros n [<- | [<- | []]]; reflexivity.
Defined.
